(** * capacitor-google-pay: the declared plugin contract

    [src/definitions.ts] is a TypeScript declaration file: two numeric
    enums, five interfaces describing request records and the
    [GooglePayPlugin] method table.  This development embeds

    - the enums as inductive types together with their numeric values,
    - the values that cross the bridge as a small JSON-like datatype,
    - TypeScript types as terms of [ts_type] with a structural
      conformance check [conforms],
    - every interface both as a Rocq record (the typed view) and as the
      [ts_type] it is declared with (the structural view), related by
      [to_js],
    - the method table as a list of signatures in source order. *)

From Stdlib Require Import ZArith List Bool Lia.
From stdpp Require Import gmap strings list fin_maps.

Import ListNotations.
Local Open Scope Z_scope.
Local Open Scope string_scope.
Local Set Warnings "-register-all".

(** ** Values crossing the bridge *)

Inductive js_value : Type :=
| JUndefined
| JBool (b : bool)
| JNum (n : Z)
| JStr (s : string)
| JArr (items : list js_value)
| JObj (props : gmap string js_value).

(** ** TypeScript types occurring in the declarations

    [TObject] is an inline object type such as [{ value: string }];
    [TInterface] is a reference to a named interface, carrying the
    properties the interface declares; [TEnum] is a reference to a
    numeric enum with its members; [TImported] is a type imported from
    another package, of which only the name is known here. *)

Inductive ts_type : Type :=
| TString
| TBoolean
| TAny
| TVoid
| TLiteral (s : string)
| TUnion (alts : list ts_type)
| TArray (elt : ts_type)
| TEnum (name : string) (members : list (string * Z))
| TObject (fields : list (string * bool * ts_type))
| TInterface (name : string) (fields : list (string * bool * ts_type))
| TImported (from name : string)
| TFunction (params : list (string * ts_type)) (ret : ts_type)
| TPromise (res : ts_type).

(** A property declaration [name: T] or [name?: T]. *)
Definition required (name : string) (t : ts_type) : string * bool * ts_type :=
  (name, false, t).
Definition optional (name : string) (t : ts_type) : string * bool * ts_type :=
  (name, true, t).

Definition field_name (f : string * bool * ts_type) : string := fst (fst f).
Definition field_optional (f : string * bool * ts_type) : bool := snd (fst f).
Definition field_type (f : string * bool * ts_type) : ts_type := snd f.

(** Structural conformance of a bridge value to a type.  Objects are
    checked property by property (an optional property may be absent,
    extra properties are allowed, as in TypeScript); promises, functions
    and imported handles are not plain data and have no conforming
    [js_value]. *)
Fixpoint conforms (t : ts_type) (v : js_value) {struct t} : bool :=
  match t with
  | TString => match v with JStr _ => true | _ => false end
  | TBoolean => match v with JBool _ => true | _ => false end
  | TAny => true
  | TVoid => match v with JUndefined => true | _ => false end
  | TLiteral s => match v with JStr s' => bool_decide (s' = s) | _ => false end
  | TUnion alts =>
      (fix any (ts : list ts_type) : bool :=
         match ts with
         | [] => false
         | a :: ts' => conforms a v || any ts'
         end) alts
  | TArray elt =>
      match v with JArr items => forallb (conforms elt) items | _ => false end
  | TEnum _ members =>
      match v with
      | JNum n => existsb (fun m => Z.eqb (snd m) n) members
      | _ => false
      end
  | TObject fields | TInterface _ fields =>
      match v with
      | JObj props =>
          (fix all (fs : list (string * bool * ts_type)) : bool :=
             match fs with
             | [] => true
             | (name, opt, ft) :: fs' =>
                 match props !! name with
                 | Some x => conforms ft x
                 | None => opt
                 end && all fs'
             end) fields
      | _ => false
      end
  | TImported _ _ | TFunction _ _ | TPromise _ => false
  end.

(** Properties declared by an object type or interface. *)
Definition fields_of (t : ts_type) : list (string * bool * ts_type) :=
  match t with
  | TObject fields | TInterface _ fields => fields
  | _ => []
  end.

Definition field_names (t : ts_type) : list string :=
  map field_name (fields_of t).

Definition required_names (t : ts_type) : list string :=
  map field_name
    (List.filter (fun f => negb (field_optional f)) (fields_of t)).

Definition optional_names (t : ts_type) : list string :=
  map field_name (List.filter field_optional (fields_of t)).

(** Name under which a type is declared, when it has one. *)
Definition type_name (t : ts_type) : option string :=
  match t with
  | TInterface n _ | TEnum n _ | TImported _ n => Some n
  | _ => None
  end.

(** ** [enum ErrorCodeReference] (definitions.ts, lines 3-13) *)

Module ErrorCodeReference.

Inductive t : Set :=
| PUSH_PROVISION_ERROR
| PUSH_PROVISION_CANCEL
| MISSING_DATA_ERROR
| CREATE_WALLET_CANCEL
| IS_TOKENIZED_ERROR
| REMOVE_TOKEN_ERROR
| INVALID_TOKEN
| SELECT_TOKEN_ERROR
| SET_DEFAULT_PAYMENTS_ERROR.

#[global] Instance error_code_eq_dec : EqDecision t.
Proof. solve_decision. Defined.

Definition value (e : t) : Z :=
  match e with
  | PUSH_PROVISION_ERROR => -1
  | PUSH_PROVISION_CANCEL => -2
  | MISSING_DATA_ERROR => -3
  | CREATE_WALLET_CANCEL => -4
  | IS_TOKENIZED_ERROR => -5
  | REMOVE_TOKEN_ERROR => -6
  | INVALID_TOKEN => -7
  | SELECT_TOKEN_ERROR => -8
  | SET_DEFAULT_PAYMENTS_ERROR => -9
  end.

Definition key (e : t) : string :=
  match e with
  | PUSH_PROVISION_ERROR => "PUSH_PROVISION_ERROR"
  | PUSH_PROVISION_CANCEL => "PUSH_PROVISION_CANCEL"
  | MISSING_DATA_ERROR => "MISSING_DATA_ERROR"
  | CREATE_WALLET_CANCEL => "CREATE_WALLET_CANCEL"
  | IS_TOKENIZED_ERROR => "IS_TOKENIZED_ERROR"
  | REMOVE_TOKEN_ERROR => "REMOVE_TOKEN_ERROR"
  | INVALID_TOKEN => "INVALID_TOKEN"
  | SELECT_TOKEN_ERROR => "SELECT_TOKEN_ERROR"
  | SET_DEFAULT_PAYMENTS_ERROR => "SET_DEFAULT_PAYMENTS_ERROR"
  end.

(** Members in declaration order. *)
Definition members : list t :=
  [ PUSH_PROVISION_ERROR; PUSH_PROVISION_CANCEL; MISSING_DATA_ERROR;
    CREATE_WALLET_CANCEL; IS_TOKENIZED_ERROR; REMOVE_TOKEN_ERROR;
    INVALID_TOKEN; SELECT_TOKEN_ERROR; SET_DEFAULT_PAYMENTS_ERROR ].

(** The reverse mapping a numeric enum carries: [ErrorCodeReference[n]]. *)
Definition of_value (n : Z) : option t :=
  find (fun e => Z.eqb (value e) n) members.

Definition decl : ts_type :=
  TEnum "ErrorCodeReference" (map (fun e => (key e, value e)) members).

End ErrorCodeReference.

(** ** [enum TokenStatusReference] (definitions.ts, lines 15-23) *)

Module TokenStatusReference.

Inductive t : Set :=
| TOKEN_STATE_UNTOKENIZED
| TOKEN_STATE_PENDING
| TOKEN_STATE_NEEDS_IDENTITY_VERIFICATION
| TOKEN_STATE_SUSPENDED
| TOKEN_STATE_ACTIVE
| TOKEN_STATE_FELICA_PENDING_PROVISIONING
| TOKEN_STATE_NOT_FOUND.

#[global] Instance token_status_eq_dec : EqDecision t.
Proof. solve_decision. Defined.

Definition value (e : t) : Z :=
  match e with
  | TOKEN_STATE_UNTOKENIZED => 1
  | TOKEN_STATE_PENDING => 2
  | TOKEN_STATE_NEEDS_IDENTITY_VERIFICATION => 3
  | TOKEN_STATE_SUSPENDED => 4
  | TOKEN_STATE_ACTIVE => 5
  | TOKEN_STATE_FELICA_PENDING_PROVISIONING => 6
  | TOKEN_STATE_NOT_FOUND => -1
  end.

Definition key (e : t) : string :=
  match e with
  | TOKEN_STATE_UNTOKENIZED => "TOKEN_STATE_UNTOKENIZED"
  | TOKEN_STATE_PENDING => "TOKEN_STATE_PENDING"
  | TOKEN_STATE_NEEDS_IDENTITY_VERIFICATION =>
      "TOKEN_STATE_NEEDS_IDENTITY_VERIFICATION"
  | TOKEN_STATE_SUSPENDED => "TOKEN_STATE_SUSPENDED"
  | TOKEN_STATE_ACTIVE => "TOKEN_STATE_ACTIVE"
  | TOKEN_STATE_FELICA_PENDING_PROVISIONING =>
      "TOKEN_STATE_FELICA_PENDING_PROVISIONING"
  | TOKEN_STATE_NOT_FOUND => "TOKEN_STATE_NOT_FOUND"
  end.

Definition members : list t :=
  [ TOKEN_STATE_UNTOKENIZED; TOKEN_STATE_PENDING;
    TOKEN_STATE_NEEDS_IDENTITY_VERIFICATION; TOKEN_STATE_SUSPENDED;
    TOKEN_STATE_ACTIVE; TOKEN_STATE_FELICA_PENDING_PROVISIONING;
    TOKEN_STATE_NOT_FOUND ].

Definition of_value (n : Z) : option t :=
  find (fun e => Z.eqb (value e) n) members.

Definition decl : ts_type :=
  TEnum "TokenStatusReference" (map (fun e => (key e, value e)) members).

End TokenStatusReference.

(** ** The request interfaces

    Each interface is given as the record a well-typed caller builds
    ([t]), as its declaration ([decl], the properties in source order
    with their optionality) and with the object [to_js] that the record
    is on the bridge: an optional property that is not set is absent
    from the object. *)

(** An object literal: later entries do not override earlier ones, the
    property names of one interface being distinct. *)
Definition object (props : list (string * js_value)) : js_value :=
  JObj (list_to_map props).

Definition opt_prop (name : string) (v : option string)
  : list (string * js_value) :=
  match v with
  | Some s => [(name, JStr s)]
  | None => []
  end.

(** [interface GooglePayAddress] (definitions.ts, lines 25-81) *)
Module GooglePayAddress.

Record t : Type := mk {
  name : string;
  address1 : string;
  address2 : option string;
  locality : string;
  administrativeArea : string;
  countryCode : string;
  postalCode : string;
  phoneNumber : string
}.

Definition decl : ts_type :=
  TInterface "GooglePayAddress"
    [ required "name" TString;
      required "address1" TString;
      optional "address2" TString;
      required "locality" TString;
      required "administrativeArea" TString;
      required "countryCode" TString;
      required "postalCode" TString;
      required "phoneNumber" TString ].

Definition to_js (a : t) : js_value :=
  object
    ([ ("name", JStr (name a)); ("address1", JStr (address1 a)) ]
     ++ opt_prop "address2" (address2 a)
     ++ [ ("locality", JStr (locality a));
          ("administrativeArea", JStr (administrativeArea a));
          ("countryCode", JStr (countryCode a));
          ("postalCode", JStr (postalCode a));
          ("phoneNumber", JStr (phoneNumber a)) ]).

End GooglePayAddress.

(** [interface GooglePayProvisionOptions] (definitions.ts, lines 84-119) *)
Module GooglePayProvisionOptions.

Record t : Type := mk {
  opc : string;
  tsp : string;
  clientName : string;
  lastDigits : string;
  address : GooglePayAddress.t
}.

Definition decl : ts_type :=
  TInterface "GooglePayProvisionOptions"
    [ required "opc" TString;
      required "tsp" TString;
      required "clientName" TString;
      required "lastDigits" TString;
      required "address" GooglePayAddress.decl ].

Definition to_js (r : t) : js_value :=
  object
    [ ("opc", JStr (opc r)); ("tsp", JStr (tsp r));
      ("clientName", JStr (clientName r));
      ("lastDigits", JStr (lastDigits r));
      ("address", GooglePayAddress.to_js (address r)) ].

End GooglePayProvisionOptions.

(** [interface GooglePayIsTokenizedOptions] (definitions.ts, lines 121-135) *)
Module GooglePayIsTokenizedOptions.

Record t : Type := mk {
  tsp : string;
  lastDigits : string
}.

Definition decl : ts_type :=
  TInterface "GooglePayIsTokenizedOptions"
    [ required "tsp" TString;
      required "lastDigits" TString ].

Definition to_js (r : t) : js_value :=
  object [ ("tsp", JStr (tsp r)); ("lastDigits", JStr (lastDigits r)) ].

End GooglePayIsTokenizedOptions.

(** [interface GooglePayTokenOptions] (definitions.ts, lines 137-151) *)
Module GooglePayTokenOptions.

Record t : Type := mk {
  tsp : string;
  tokenReferenceId : string
}.

Definition decl : ts_type :=
  TInterface "GooglePayTokenOptions"
    [ required "tsp" TString;
      required "tokenReferenceId" TString ].

Definition to_js (r : t) : js_value :=
  object
    [ ("tsp", JStr (tsp r));
      ("tokenReferenceId", JStr (tokenReferenceId r)) ].

End GooglePayTokenOptions.

(** ** [interface GooglePayPlugin] (definitions.ts, lines 153-278) *)

Record method_sig : Type := {
  mname : string;
  mparams : list (string * ts_type);
  mret : ts_type
}.

Module GooglePayPlugin.

Definition addListener : method_sig :=
  {| mname := "addListener";
     mparams :=
       [ ("eventName", TLiteral "registerDataChangedListener");
         ("listenerFunc", TFunction [("response", TAny)] TVoid) ];
     mret := TPromise (TImported "@capacitor/core" "PluginListenerHandle") |}.

Definition removeAllListeners : method_sig :=
  {| mname := "removeAllListeners"; mparams := []; mret := TVoid |}.

Definition getEnvironment : method_sig :=
  {| mname := "getEnvironment";
     mparams := [];
     mret :=
       TPromise
         (TObject
            [ required "value"
                (TUnion [TLiteral "PROD"; TLiteral "SANDBOX"; TLiteral "DEV"]) ]) |}.

Definition getStableHardwareId : method_sig :=
  {| mname := "getStableHardwareId";
     mparams := [];
     mret := TPromise (TObject [ required "hardwareId" TString ]) |}.

Definition getActiveWalletID : method_sig :=
  {| mname := "getActiveWalletID";
     mparams := [];
     mret := TPromise (TObject [ required "walletId" TString ]) |}.

Definition createWallet : method_sig :=
  {| mname := "createWallet";
     mparams := [];
     mret := TPromise (TObject [ required "isCreated" TBoolean ]) |}.

Definition getTokenStatus : method_sig :=
  {| mname := "getTokenStatus";
     mparams := [ ("options", GooglePayTokenOptions.decl) ];
     mret :=
       TPromise
         (TObject
            [ required "state" TokenStatusReference.decl;
              required "code" TString ]) |}.

Definition listTokens : method_sig :=
  {| mname := "listTokens";
     mparams := [];
     mret := TPromise (TObject [ required "tokens" (TArray TString) ]) |}.

Definition isTokenized : method_sig :=
  {| mname := "isTokenized";
     mparams := [ ("options", GooglePayIsTokenizedOptions.decl) ];
     mret := TPromise (TObject [ required "isTokenized" TBoolean ]) |}.

Definition pushProvision : method_sig :=
  {| mname := "pushProvision";
     mparams := [ ("options", GooglePayProvisionOptions.decl) ];
     mret := TPromise (TObject [ required "tokenId" TString ]) |}.

Definition requestSelectToken : method_sig :=
  {| mname := "requestSelectToken";
     mparams := [ ("options", GooglePayTokenOptions.decl) ];
     mret := TPromise (TObject [ required "isSuccess" TBoolean ]) |}.

Definition requestDeleteToken : method_sig :=
  {| mname := "requestDeleteToken";
     mparams := [ ("options", GooglePayTokenOptions.decl) ];
     mret := TPromise (TObject [ required "isSuccess" TBoolean ]) |}.

Definition isGPayDefaultNFCApp : method_sig :=
  {| mname := "isGPayDefaultNFCApp";
     mparams := [];
     mret :=
       TPromise
         (TObject
            [ required "isDefault" TBoolean; required "isNFCOn" TBoolean ]) |}.

Definition setGPayAsDefaultNFCApp : method_sig :=
  {| mname := "setGPayAsDefaultNFCApp";
     mparams := [];
     mret := TPromise (TObject [ required "isDefault" TBoolean ]) |}.

Definition registerDataChangedListener : method_sig :=
  {| mname := "registerDataChangedListener";
     mparams := [];
     mret := TPromise TAny |}.

(** The members of the interface, in source order. *)
Definition decl : list method_sig :=
  [ addListener; removeAllListeners; getEnvironment; getStableHardwareId;
    getActiveWalletID; createWallet; getTokenStatus; listTokens;
    isTokenized; pushProvision; requestSelectToken; requestDeleteToken;
    isGPayDefaultNFCApp; setGPayAsDefaultNFCApp;
    registerDataChangedListener ].

End GooglePayPlugin.

(** ** Reading a signature *)

Definition is_function (t : ts_type) : bool :=
  match t with TFunction _ _ => true | _ => false end.

(** The type a call resolves with, when the method returns a promise. *)
Definition resolves_with (m : method_sig) : option ts_type :=
  match mret m with
  | TPromise r => Some r
  | _ => None
  end.

Definition returns_promise (m : method_sig) : bool :=
  match mret m with TPromise _ => true | _ => false end.

(** A method that is handed a callback registers a subscription; any
    other method that returns a promise is a request answered by one
    response; a method that returns [void] answers nothing. *)
Inductive method_kind : Set :=
| EventSubscription
| RequestResponse
| FireAndForget.

Definition kind_of (m : method_sig) : method_kind :=
  if existsb (fun p => is_function (snd p)) (mparams m) then EventSubscription
  else if returns_promise m then RequestResponse
  else FireAndForget.

Definition method_kind_eqb (a b : method_kind) : bool :=
  match a, b with
  | EventSubscription, EventSubscription
  | RequestResponse, RequestResponse
  | FireAndForget, FireAndForget => true
  | _, _ => false
  end.

Definition methods_of_kind (k : method_kind) (ms : list method_sig)
  : list method_sig :=
  List.filter (fun m => method_kind_eqb (kind_of m) k) ms.

(** Property names of the record a call resolves with; [None] when the
    result is not declared as a record. *)
Definition result_fields (m : method_sig) : option (list string) :=
  match resolves_with m with
  | Some (TObject fields) | Some (TInterface _ fields) =>
      Some (map field_name fields)
  | _ => None
  end.

(** Names of the declared types a method takes, one entry per parameter. *)
Definition param_type_names (m : method_sig) : list (option string) :=
  map (fun p => type_name (snd p)) (mparams m).

Definition takes (name : string) (m : method_sig) : bool :=
  bool_decide (param_type_names m = [Some name]).

(** ** The [pushProvision] call on the bridge

    The declaration file fixes the type of the request; what happens to
    a request that lacks a property is decided by the native side of
    the plugin, which the TypeScript sources do not contain. *)

(** How a call ends: the promise resolves with a value or is rejected
    with an error code. *)
Inductive outcome : Type :=
| Resolved (v : js_value)
| Failed (code : ErrorCodeReference.t).

Module Bridge.
Section PushProvision.

(** The spec fixes the verdict for a property that is non-empty and
    for one that is omitted; whether a present but empty string counts
    as populated is left to the implementation. *)
Variable accept_empty : bool.

(** The platform call that performs the provisioning once the request
    has been dispatched. *)
Variable native : js_value -> outcome.

(** Modelled from the spec: the per-property test of the native
    request-shape validation (absent from the sources); a property is
    populated when it is present as a string, non-empty unless empty
    strings are accepted. *)
Definition populated (props : gmap string js_value) (name : string) : bool :=
  match props !! name with
  | Some (JStr s) => accept_empty || negb (String.eqb s "")
  | _ => false
  end.

(** Modelled from the spec: the native check of the address of a
    provisioning request (absent from the sources), "a valid Address
    (all required Address fields non-empty)"; the required properties
    are those of the declared interface. *)
Definition valid_address (v : option js_value) : bool :=
  match v with
  | Some (JObj a) =>
      forallb (populated a) (required_names GooglePayAddress.decl)
  | _ => false
  end.

(** Modelled from the spec: the native request-shape validation of
    [pushProvision] (absent from the sources), "all required fields
    populated and a valid Address" over the required fields the spec
    lists: opc, tsp, clientName, lastDigits, address. *)
Definition valid_shape (req : js_value) : bool :=
  match req with
  | JObj r =>
      forallb (populated r) ["opc"; "tsp"; "clientName"; "lastDigits"]
      && valid_address (r !! "address")
  | _ => false
  end.

(** Modelled from the spec: the native entry point of [pushProvision]
    (absent from the sources); a request that fails the shape
    validation "must be rejected before dispatch with
    MISSING_DATA_ERROR", any other is handed to the platform.  The
    second component lists the requests dispatched. *)
Definition pushProvision (req : js_value) : outcome * list js_value :=
  if valid_shape req then (native req, [req])
  else (Failed ErrorCodeReference.MISSING_DATA_ERROR, []).

End PushProvision.
End Bridge.

(** The properties an object carries on the bridge. *)
Definition props_of (v : js_value) : gmap string js_value :=
  match v with
  | JObj props => props
  | _ => ∅
  end.

Definition keys (v : js_value) : gset string := dom (props_of v).

(** A property holding a non-empty string. *)
Definition non_empty_string (v : option js_value) : Prop :=
  exists s, v = Some (JStr s) /\ s <> "".

(** The result shapes section 6 of the spec lists for the request/response
    operations. *)
Definition listed_result_fields : list (list string) :=
  [ ["value"]; ["hardwareId"]; ["walletId"]; ["isCreated"];
    ["state"; "code"]; ["tokens"]; ["isTokenized"]; ["tokenId"];
    ["isSuccess"]; ["isDefault"; "isNFCOn"]; ["isDefault"] ].

(** Whether a result is declared as a record with one of the listed
    shapes. *)
Definition resolves_with_listed_fields (m : method_sig) : bool :=
  match result_fields m with
  | Some fs => bool_decide (fs ∈ listed_result_fields)
  | None => false
  end.

(** Whether a call of [m] may resolve with the value [v]. *)
Definition may_resolve_with (m : method_sig) (v : js_value) : bool :=
  match resolves_with m with
  | Some T => conforms T v
  | None => false
  end.

(** The declared type of the parameter [name] of [m]. *)
Definition param_type (m : method_sig) (name : string) : option ts_type :=
  snd <$> List.find (fun p => String.eqb (fst p) name) (mparams m).

(** Whether [v] may be passed for the parameter [name] of [m]. *)
Definition param_accepts (m : method_sig) (name : string) (v : js_value)
  : bool :=
  match param_type m name with
  | Some T => conforms T v
  | None => false
  end.

(** A complete provisioning request and a platform that answers every
    dispatched request with a token, used to exercise the bridge. *)
Definition sample_address : GooglePayAddress.t :=
  GooglePayAddress.mk "Jane Doe" "1 Main Street" None "Springfield" "IL"
    "US" "62701" "+15550100".

Definition sample_request : GooglePayProvisionOptions.t :=
  GooglePayProvisionOptions.mk "b3BhcXVl" "VISA" "Acme Bank" "1234"
    sample_address.

Definition sample_native (req : js_value) : outcome :=
  Resolved (object [ ("tokenId", JStr "token-1") ]).

(** Whether the type declared under [name] occurs in [t]. *)
Fixpoint mentions (name : string) (t : ts_type) {struct t} : bool :=
  match t with
  | TString | TBoolean | TAny | TVoid | TLiteral _ => false
  | TUnion alts =>
      (fix any (ts : list ts_type) : bool :=
         match ts with
         | [] => false
         | a :: ts' => mentions name a || any ts'
         end) alts
  | TArray elt => mentions name elt
  | TEnum n _ => String.eqb n name
  | TObject fields =>
      (fix any (fs : list (string * bool * ts_type)) : bool :=
         match fs with
         | [] => false
         | (_, _, ft) :: fs' => mentions name ft || any fs'
         end) fields
  | TInterface n fields =>
      String.eqb n name
      || (fix any (fs : list (string * bool * ts_type)) : bool :=
            match fs with
            | [] => false
            | (_, _, ft) :: fs' => mentions name ft || any fs'
            end) fields
  | TImported _ n => String.eqb n name
  | TFunction params ret =>
      (fix any (ps : list (string * ts_type)) : bool :=
         match ps with
         | [] => false
         | (_, pt) :: ps' => mentions name pt || any ps'
         end) params
      || mentions name ret
  | TPromise res => mentions name res
  end.

(** Whether a parameter or the result of [m] mentions the type [name]. *)
Definition signature_mentions (name : string) (m : method_sig) : bool :=
  existsb (fun p => mentions name (snd p)) (mparams m)
  || mentions name (mret m).

(** Whether the arguments fit the parameters: one argument for each
    parameter (none of them is optional), each of the declared type. *)
Fixpoint args_conform (ps : list (string * ts_type)) (args : list js_value)
  : bool :=
  match ps, args with
  | [], [] => true
  | (_, T) :: ps', a :: args' => conforms T a && args_conform ps' args'
  | _, _ => false
  end.

Definition accepts_args (m : method_sig) (args : list js_value) : bool :=
  args_conform (mparams m) args.

(** What an object type asks of one property. *)
Definition property_ok (props : gmap string js_value)
    (f : string * bool * ts_type) : bool :=
  match props !! field_name f with
  | Some x => conforms (field_type f) x
  | None => field_optional f
  end.

(** * Properties *)

(** ** Enumerations *)

Lemma ErrorCodeReference_members_complete (e : ErrorCodeReference.t) :
  In e ErrorCodeReference.members.
Proof. destruct e; cbn; tauto. Qed.

Lemma ErrorCodeReference_of_value_value (e : ErrorCodeReference.t) :
  ErrorCodeReference.of_value (ErrorCodeReference.value e) = Some e.
Proof. destruct e; reflexivity. Qed.

Lemma ErrorCodeReference_value_inj (a b : ErrorCodeReference.t) :
  ErrorCodeReference.value a = ErrorCodeReference.value b -> a = b.
Proof.
  intros H.
  assert (Some a = Some b) as E
    by (rewrite <- !ErrorCodeReference_of_value_value; now rewrite H).
  now inversion E.
Qed.

Lemma TokenStatusReference_members_complete (e : TokenStatusReference.t) :
  In e TokenStatusReference.members.
Proof. destruct e; cbn; tauto. Qed.

Lemma TokenStatusReference_of_value_value (e : TokenStatusReference.t) :
  TokenStatusReference.of_value (TokenStatusReference.value e) = Some e.
Proof. destruct e; reflexivity. Qed.

Lemma TokenStatusReference_value_inj (a b : TokenStatusReference.t) :
  TokenStatusReference.value a = TokenStatusReference.value b -> a = b.
Proof.
  intros H.
  assert (Some a = Some b) as E
    by (rewrite <- !TokenStatusReference_of_value_value; now rewrite H).
  now inversion E.
Qed.

(** C1: [ErrorCodeReference] has exactly nine members; their values, in
    declaration order, are -1, -2, ..., -9 under the names
    PUSH_PROVISION_ERROR, PUSH_PROVISION_CANCEL, MISSING_DATA_ERROR,
    CREATE_WALLET_CANCEL, IS_TOKENIZED_ERROR, REMOVE_TOKEN_ERROR,
    INVALID_TOKEN, SELECT_TOKEN_ERROR, SET_DEFAULT_PAYMENTS_ERROR; every
    value is a negative integer in [-9, -1] and no two members share a
    value. *)
Theorem ErrorCodeReference_nine_unique_negative_codes :
  length ErrorCodeReference.members = 9%nat
  /\ (forall e, In e ErrorCodeReference.members)
  /\ NoDup ErrorCodeReference.members
  /\ map (fun e => (ErrorCodeReference.key e, ErrorCodeReference.value e))
       ErrorCodeReference.members
     = [ ("PUSH_PROVISION_ERROR", -1); ("PUSH_PROVISION_CANCEL", -2);
         ("MISSING_DATA_ERROR", -3); ("CREATE_WALLET_CANCEL", -4);
         ("IS_TOKENIZED_ERROR", -5); ("REMOVE_TOKEN_ERROR", -6);
         ("INVALID_TOKEN", -7); ("SELECT_TOKEN_ERROR", -8);
         ("SET_DEFAULT_PAYMENTS_ERROR", -9) ]
  /\ (forall e, -9 <= ErrorCodeReference.value e <= -1)
  /\ NoDup (map ErrorCodeReference.value ErrorCodeReference.members)
  /\ (forall e, ErrorCodeReference.of_value (ErrorCodeReference.value e)
                 = Some e).
Proof.
  split; [reflexivity |].
  split; [exact ErrorCodeReference_members_complete |].
  split; [compute_done |].
  split; [reflexivity |].
  split; [intros e; destruct e; cbn; lia |].
  split; [compute_done |].
  exact ErrorCodeReference_of_value_value.
Qed.

(** C2: the values of [TokenStatusReference] are exactly
    -1, 1, 2, 3, 4, 5, 6, without duplicates, with
    TOKEN_STATE_UNTOKENIZED = 1, TOKEN_STATE_PENDING = 2,
    TOKEN_STATE_NEEDS_IDENTITY_VERIFICATION = 3, TOKEN_STATE_SUSPENDED = 4,
    TOKEN_STATE_ACTIVE = 5, TOKEN_STATE_FELICA_PENDING_PROVISIONING = 6 and
    TOKEN_STATE_NOT_FOUND = -1. *)
Theorem TokenStatusReference_value_set :
  (forall e, In e TokenStatusReference.members)
  /\ NoDup TokenStatusReference.members
  /\ map (fun e => (TokenStatusReference.key e, TokenStatusReference.value e))
       TokenStatusReference.members
     = [ ("TOKEN_STATE_UNTOKENIZED", 1); ("TOKEN_STATE_PENDING", 2);
         ("TOKEN_STATE_NEEDS_IDENTITY_VERIFICATION", 3);
         ("TOKEN_STATE_SUSPENDED", 4); ("TOKEN_STATE_ACTIVE", 5);
         ("TOKEN_STATE_FELICA_PENDING_PROVISIONING", 6);
         ("TOKEN_STATE_NOT_FOUND", -1) ]
  /\ NoDup (map TokenStatusReference.value TokenStatusReference.members)
  /\ list_to_set (map TokenStatusReference.value TokenStatusReference.members)
     = ({[ -1; 1; 2; 3; 4; 5; 6 ]} : gset Z)
  /\ (forall e, TokenStatusReference.of_value (TokenStatusReference.value e)
                 = Some e).
Proof.
  split; [exact TokenStatusReference_members_complete |].
  split; [compute_done |].
  split; [reflexivity |].
  split; [compute_done |].
  split; [compute_done |].
  exact TokenStatusReference_of_value_value.
Qed.

(** ** Request records *)

Lemma GooglePayAddress_to_js_conforms (a : GooglePayAddress.t) :
  conforms GooglePayAddress.decl (GooglePayAddress.to_js a) = true.
Proof. destruct a as [? ? [?|] ? ? ? ? ?]; reflexivity. Qed.

Lemma GooglePayAddress_to_js_keys (a : GooglePayAddress.t) :
  keys (GooglePayAddress.to_js a)
  = list_to_set (required_names GooglePayAddress.decl)
    ∪ match GooglePayAddress.address2 a with
      | Some _ => {["address2"]}
      | None => ∅
      end.
Proof. destruct a as [? ? [?|] ? ? ? ? ?]; vm_compute; reflexivity. Qed.

(** C7: [GooglePayAddress] declares exactly the required properties name,
    address1, locality, administrativeArea, countryCode, postalCode and
    phoneNumber and exactly one optional property, address2; an address
    record carries the required properties always and address2 only when
    it is set. *)
Theorem GooglePayAddress_required_and_optional_fields :
  map (fun f => (field_name f, field_optional f))
      (fields_of GooglePayAddress.decl)
  = [ ("name", false); ("address1", false); ("address2", true);
      ("locality", false); ("administrativeArea", false);
      ("countryCode", false); ("postalCode", false); ("phoneNumber", false) ]
  /\ NoDup (field_names GooglePayAddress.decl)
  /\ required_names GooglePayAddress.decl
     = [ "name"; "address1"; "locality"; "administrativeArea"; "countryCode";
         "postalCode"; "phoneNumber" ]
  /\ optional_names GooglePayAddress.decl = [ "address2" ]
  /\ (forall a, conforms GooglePayAddress.decl (GooglePayAddress.to_js a) = true)
  /\ (forall a,
        keys (GooglePayAddress.to_js a)
        = list_to_set (required_names GooglePayAddress.decl)
          ∪ match GooglePayAddress.address2 a with
      | Some _ => {["address2"]}
      | None => ∅
      end).
Proof.
  split; [reflexivity |].
  split; [compute_done |].
  split; [reflexivity |].
  split; [reflexivity |].
  split; [exact GooglePayAddress_to_js_conforms |].
  exact GooglePayAddress_to_js_keys.
Qed.

Lemma GooglePayProvisionOptions_to_js_conforms (r : GooglePayProvisionOptions.t) :
  conforms GooglePayProvisionOptions.decl (GooglePayProvisionOptions.to_js r)
  = true.
Proof. destruct r as [? ? ? ? [? ? [?|] ? ? ? ? ?]]; reflexivity. Qed.

Lemma GooglePayProvisionOptions_to_js_keys (r : GooglePayProvisionOptions.t) :
  keys (GooglePayProvisionOptions.to_js r)
  = list_to_set (field_names GooglePayProvisionOptions.decl).
Proof. destruct r; vm_compute; reflexivity. Qed.

(** C4: [GooglePayProvisionOptions] declares exactly five properties, opc,
    tsp, clientName, lastDigits (strings) and address (a
    [GooglePayAddress]), all of them required. *)
Theorem GooglePayProvisionOptions_five_required_fields :
  fields_of GooglePayProvisionOptions.decl
  = [ ("opc", false, TString); ("tsp", false, TString);
      ("clientName", false, TString); ("lastDigits", false, TString);
      ("address", false, GooglePayAddress.decl) ]
  /\ length (fields_of GooglePayProvisionOptions.decl) = 5%nat
  /\ NoDup (field_names GooglePayProvisionOptions.decl)
  /\ required_names GooglePayProvisionOptions.decl
     = [ "opc"; "tsp"; "clientName"; "lastDigits"; "address" ]
  /\ optional_names GooglePayProvisionOptions.decl = []
  /\ (forall r,
        conforms GooglePayProvisionOptions.decl
          (GooglePayProvisionOptions.to_js r) = true)
  /\ (forall r,
        keys (GooglePayProvisionOptions.to_js r)
        = list_to_set [ "opc"; "tsp"; "clientName"; "lastDigits"; "address" ]).
Proof.
  split; [reflexivity |].
  split; [reflexivity |].
  split; [compute_done |].
  split; [reflexivity |].
  split; [reflexivity |].
  split; [exact GooglePayProvisionOptions_to_js_conforms |].
  exact GooglePayProvisionOptions_to_js_keys.
Qed.

(** C8: [GooglePayIsTokenizedOptions] declares exactly tsp and lastDigits,
    [GooglePayTokenOptions] exactly tsp and tokenReferenceId, every one of
    them required; [GooglePayTokenOptions] is the input of getTokenStatus,
    requestSelectToken and requestDeleteToken (and of no other method),
    [GooglePayIsTokenizedOptions] that of isTokenized. *)
Theorem token_query_keys_fields :
  fields_of GooglePayIsTokenizedOptions.decl
  = [ ("tsp", false, TString); ("lastDigits", false, TString) ]
  /\ fields_of GooglePayTokenOptions.decl
     = [ ("tsp", false, TString); ("tokenReferenceId", false, TString) ]
  /\ optional_names GooglePayIsTokenizedOptions.decl = []
  /\ optional_names GooglePayTokenOptions.decl = []
  /\ (forall r,
        keys (GooglePayIsTokenizedOptions.to_js r)
        = list_to_set [ "tsp"; "lastDigits" ])
  /\ (forall r,
        keys (GooglePayTokenOptions.to_js r)
        = list_to_set [ "tsp"; "tokenReferenceId" ])
  /\ map mname
       (List.filter (takes "GooglePayTokenOptions") GooglePayPlugin.decl)
     = [ "getTokenStatus"; "requestSelectToken"; "requestDeleteToken" ]
  /\ mparams GooglePayPlugin.getTokenStatus
     = [ ("options", GooglePayTokenOptions.decl) ]
  /\ mparams GooglePayPlugin.requestSelectToken
     = [ ("options", GooglePayTokenOptions.decl) ]
  /\ mparams GooglePayPlugin.requestDeleteToken
     = [ ("options", GooglePayTokenOptions.decl) ]
  /\ map mname
       (List.filter (takes "GooglePayIsTokenizedOptions") GooglePayPlugin.decl)
     = [ "isTokenized" ]
  /\ mparams GooglePayPlugin.isTokenized
     = [ ("options", GooglePayIsTokenizedOptions.decl) ].
Proof.
  repeat split; reflexivity.
Qed.

(** ** The method table *)

(** C3 (as stated it fails): registerDataChangedListener is one of the
    thirteen request/response operations, yet it resolves with [any], not
    with a record of one of the listed shapes. *)
Lemma registerDataChangedListener_result_is_not_a_listed_record :
  In GooglePayPlugin.registerDataChangedListener
     (methods_of_kind RequestResponse GooglePayPlugin.decl)
  /\ mret GooglePayPlugin.registerDataChangedListener = TPromise TAny
  /\ result_fields GooglePayPlugin.registerDataChangedListener = None
  /\ resolves_with_listed_fields GooglePayPlugin.registerDataChangedListener
     = false
  /\ forallb resolves_with_listed_fields
       (methods_of_kind RequestResponse GooglePayPlugin.decl) = false
  /\ ~ (forall m,
          In m (methods_of_kind RequestResponse GooglePayPlugin.decl) ->
          exists fs, In fs listed_result_fields /\ result_fields m = Some fs).
Proof.
  assert (In GooglePayPlugin.registerDataChangedListener
             (methods_of_kind RequestResponse GooglePayPlugin.decl)) as Hin
    by (vm_compute; tauto).
  repeat split; try reflexivity; [exact Hin |].
  intros Hall. destruct (Hall _ Hin) as (fs & _ & Hfs). discriminate Hfs.
Qed.

(** C3 (amended): [GooglePayPlugin] declares fifteen methods: one event
    subscription (addListener, for 'registerDataChangedListener'), one
    global unsubscribe returning nothing (removeAllListeners) and thirteen
    request/response operations.  Twelve of these resolve with a record of
    exactly the listed property names, which are all eleven listed shapes
    (requestSelectToken and requestDeleteToken share isSuccess);
    registerDataChangedListener resolves with an opaque [any] value. *)
Theorem GooglePayPlugin_method_surface :
  map mname GooglePayPlugin.decl
  = [ "addListener"; "removeAllListeners"; "getEnvironment";
      "getStableHardwareId"; "getActiveWalletID"; "createWallet";
      "getTokenStatus"; "listTokens"; "isTokenized"; "pushProvision";
      "requestSelectToken"; "requestDeleteToken"; "isGPayDefaultNFCApp";
      "setGPayAsDefaultNFCApp"; "registerDataChangedListener" ]
  /\ methods_of_kind EventSubscription GooglePayPlugin.decl
     = [ GooglePayPlugin.addListener ]
  /\ param_type GooglePayPlugin.addListener "eventName"
     = Some (TLiteral "registerDataChangedListener")
  /\ methods_of_kind FireAndForget GooglePayPlugin.decl
     = [ GooglePayPlugin.removeAllListeners ]
  /\ length (methods_of_kind RequestResponse GooglePayPlugin.decl) = 13%nat
  /\ map (fun m => (mname m, result_fields m))
       (methods_of_kind RequestResponse GooglePayPlugin.decl)
     = [ ("getEnvironment", Some ["value"]);
         ("getStableHardwareId", Some ["hardwareId"]);
         ("getActiveWalletID", Some ["walletId"]);
         ("createWallet", Some ["isCreated"]);
         ("getTokenStatus", Some ["state"; "code"]);
         ("listTokens", Some ["tokens"]);
         ("isTokenized", Some ["isTokenized"]);
         ("pushProvision", Some ["tokenId"]);
         ("requestSelectToken", Some ["isSuccess"]);
         ("requestDeleteToken", Some ["isSuccess"]);
         ("isGPayDefaultNFCApp", Some ["isDefault"; "isNFCOn"]);
         ("setGPayAsDefaultNFCApp", Some ["isDefault"]);
         ("registerDataChangedListener", None) ]
  /\ List.filter (fun m => negb (resolves_with_listed_fields m))
       (methods_of_kind RequestResponse GooglePayPlugin.decl)
     = [ GooglePayPlugin.registerDataChangedListener ]
  /\ remove_dups
       (omap result_fields
          (methods_of_kind RequestResponse GooglePayPlugin.decl))
     = listed_result_fields
  /\ resolves_with GooglePayPlugin.registerDataChangedListener = Some TAny
  /\ (forall v,
        may_resolve_with GooglePayPlugin.registerDataChangedListener v = true).
Proof.
  repeat split; reflexivity.
Qed.

(** C6 (as stated it fails): removeAllListeners is a method of the
    interface other than the event subscription, and it is declared to
    return [void], not a promise. *)
Lemma removeAllListeners_returns_void :
  In GooglePayPlugin.removeAllListeners GooglePayPlugin.decl
  /\ kind_of GooglePayPlugin.removeAllListeners = FireAndForget
  /\ mret GooglePayPlugin.removeAllListeners = TVoid
  /\ returns_promise GooglePayPlugin.removeAllListeners = false
  /\ forallb returns_promise
       (List.filter
          (fun m => negb (method_kind_eqb (kind_of m) EventSubscription))
          GooglePayPlugin.decl) = false.
Proof.
  repeat split; try reflexivity. vm_compute; tauto.
Qed.

(** C6 (amended): every method of [GooglePayPlugin] except
    removeAllListeners returns a promise: each of the thirteen
    request/response operations, and the event subscription addListener
    as well; removeAllListeners is declared to return [void]. *)
Theorem GooglePayPlugin_promise_results :
  List.filter (fun m => negb (returns_promise m)) GooglePayPlugin.decl
  = [ GooglePayPlugin.removeAllListeners ]
  /\ mret GooglePayPlugin.removeAllListeners = TVoid
  /\ forallb returns_promise
       (methods_of_kind RequestResponse GooglePayPlugin.decl) = true
  /\ length (methods_of_kind RequestResponse GooglePayPlugin.decl) = 13%nat
  /\ returns_promise GooglePayPlugin.addListener = true
  /\ length GooglePayPlugin.decl = 15%nat.
Proof.
  repeat split; reflexivity.
Qed.

Lemma conforms_environment_tag (v : js_value) :
  conforms (TUnion [TLiteral "PROD"; TLiteral "SANDBOX"; TLiteral "DEV"]) v
  = true
  <-> exists s, v = JStr s /\ In s ["PROD"; "SANDBOX"; "DEV"].
Proof.
  split.
  - destruct v as [| b | n | s | items | props]; cbn; try discriminate.
    intros H. exists s. split; [reflexivity |].
    repeat (apply orb_prop in H as [H | H];
            [apply bool_decide_eq_true_1 in H; subst s; cbn; tauto |]).
    discriminate H.
  - intros (s & -> & Hs). cbn in Hs.
    destruct Hs as [<- | [<- | [<- | []]]]; reflexivity.
Qed.

Lemma conforms_single_property (name : string) (T : ts_type)
    (props : gmap string js_value) :
  conforms (TObject [ required name T ]) (JObj props)
  = match props !! name with
    | Some x => conforms T x
    | None => false
    end.
Proof.
  cbn [conforms required]. destruct (props !! name); apply andb_true_r.
Qed.

(** C9: getEnvironment takes no argument, and a value it resolves with is
    a record whose property value is one of the strings 'PROD', 'SANDBOX'
    and 'DEV'; each of the three is possible and no other string is. *)
Theorem getEnvironment_resolves_with_an_environment_tag :
  mparams GooglePayPlugin.getEnvironment = []
  /\ resolves_with GooglePayPlugin.getEnvironment
     = Some (TObject
               [ required "value"
                   (TUnion
                      [TLiteral "PROD"; TLiteral "SANDBOX"; TLiteral "DEV"]) ])
  /\ (forall v,
        may_resolve_with GooglePayPlugin.getEnvironment v = true
        <-> exists props s,
              v = JObj props /\ props !! "value" = Some (JStr s)
              /\ In s ["PROD"; "SANDBOX"; "DEV"]).
Proof.
  split; [reflexivity |]. split; [reflexivity |].
  intros v. unfold may_resolve_with.
  change (resolves_with GooglePayPlugin.getEnvironment)
    with (Some (TObject
                  [ required "value"
                      (TUnion
                         [TLiteral "PROD"; TLiteral "SANDBOX"; TLiteral "DEV"]) ])).
  split.
  - destruct v as [| b | n | s | items | props]; try (cbn; discriminate).
    rewrite conforms_single_property.
    destruct (props !! "value") as [x |] eqn:Hx; [| discriminate].
    intros H. apply conforms_environment_tag in H as (s & -> & Hs).
    exists props, s. auto.
  - intros (props & s & -> & Hx & Hs).
    rewrite conforms_single_property, Hx.
    apply conforms_environment_tag. eauto.
Qed.

(** C10: the parameter eventName of addListener has the literal type
    'registerDataChangedListener': that string is the only value it
    accepts; addListener is the only method with an event name, and it
    resolves with a PluginListenerHandle. *)
Theorem addListener_event_name_is_registerDataChangedListener :
  mparams GooglePayPlugin.addListener
  = [ ("eventName", TLiteral "registerDataChangedListener");
      ("listenerFunc", TFunction [("response", TAny)] TVoid) ]
  /\ (forall v,
        param_accepts GooglePayPlugin.addListener "eventName" v = true
        <-> v = JStr "registerDataChangedListener")
  /\ List.filter (fun m => bool_decide (is_Some (param_type m "eventName")))
       GooglePayPlugin.decl
     = [ GooglePayPlugin.addListener ]
  /\ methods_of_kind EventSubscription GooglePayPlugin.decl
     = [ GooglePayPlugin.addListener ]
  /\ resolves_with GooglePayPlugin.addListener
     = Some (TImported "@capacitor/core" "PluginListenerHandle").
Proof.
  split; [reflexivity |].
  split; [| repeat split; reflexivity].
  intros v.
  change (param_accepts GooglePayPlugin.addListener "eventName" v)
    with (conforms (TLiteral "registerDataChangedListener") v).
  split.
  - destruct v as [| b | n | s | items | props]; cbn; try discriminate.
    intros H. apply bool_decide_eq_true_1 in H. now subst s.
  - intros ->. reflexivity.
Qed.

(** ** Shape validation of a provisioning request *)

Section Validation.

Variable accept_empty : bool.
Variable native : js_value -> outcome.

Lemma populated_non_empty (props : gmap string js_value) (name : string) :
  non_empty_string (props !! name) ->
  Bridge.populated accept_empty props name = true.
Proof.
  intros (s & Hs & Hne). unfold Bridge.populated. rewrite Hs.
  apply String.eqb_neq in Hne. rewrite Hne. apply orb_true_r.
Qed.

Lemma populated_omitted (props : gmap string js_value) (name : string) :
  props !! name = None ->
  Bridge.populated accept_empty props name = false.
Proof. intros H. unfold Bridge.populated. now rewrite H. Qed.

Lemma forallb_populated_omitted (props : gmap string js_value)
    (names : list string) (name : string) :
  In name names ->
  props !! name = None ->
  forallb (Bridge.populated accept_empty props) names = false.
Proof.
  intros Hin Hnone.
  destruct (forallb _ names) eqn:E; [| reflexivity].
  rewrite forallb_forall in E. specialize (E name Hin).
  now rewrite populated_omitted in E.
Qed.

Lemma valid_shape_populated (req addr : gmap string js_value) :
  (forall f, In f ["opc"; "tsp"; "clientName"; "lastDigits"] ->
             non_empty_string (req !! f)) ->
  req !! "address" = Some (JObj addr) ->
  (forall g, In g (required_names GooglePayAddress.decl) ->
             non_empty_string (addr !! g)) ->
  Bridge.valid_shape accept_empty (JObj req) = true.
Proof.
  intros Hreq Haddr Hsub. unfold Bridge.valid_shape.
  apply andb_true_iff. split.
  - apply forallb_forall. intros f Hf. now apply populated_non_empty, Hreq.
  - rewrite Haddr. unfold Bridge.valid_address.
    apply forallb_forall. intros g Hg. now apply populated_non_empty, Hsub.
Qed.

Lemma valid_shape_omitted (req : gmap string js_value) (f : string) :
  In f (required_names GooglePayProvisionOptions.decl) ->
  req !! f = None ->
  Bridge.valid_shape accept_empty (JObj req) = false.
Proof.
  intros Hf Hnone. unfold Bridge.valid_shape.
  destruct (decide (f = "address")) as [-> | Hne].
  - rewrite Hnone. apply andb_false_r.
  - rewrite (forallb_populated_omitted req _ f); [reflexivity | | exact Hnone].
    change (required_names GooglePayProvisionOptions.decl)
      with ["opc"; "tsp"; "clientName"; "lastDigits"; "address"] in Hf.
    cbn in Hf |- *. intuition congruence.
Qed.

Lemma valid_shape_address_omitted (req addr : gmap string js_value)
    (g : string) :
  req !! "address" = Some (JObj addr) ->
  In g (required_names GooglePayAddress.decl) ->
  addr !! g = None ->
  Bridge.valid_shape accept_empty (JObj req) = false.
Proof.
  intros Haddr Hg Hnone. unfold Bridge.valid_shape.
  rewrite Haddr. unfold Bridge.valid_address.
  rewrite (forallb_populated_omitted addr _ g Hg Hnone).
  apply andb_false_r.
Qed.

End Validation.

(** Every request built from the typed record passes the validation
    when empty strings are accepted: the declared type leaves no
    required property out. *)
Lemma valid_shape_to_js (r : GooglePayProvisionOptions.t) :
  Bridge.valid_shape true (GooglePayProvisionOptions.to_js r) = true.
Proof. destruct r as [? ? ? ? [? ? [?|] ? ? ? ? ?]]; reflexivity. Qed.

(** C5: for a request handed to pushProvision, (1) when opc, tsp,
    clientName and lastDigits are non-empty strings and address is an
    object whose required properties are non-empty strings, the request
    passes the shape validation and is dispatched; (2) when a required
    property of the request is omitted, or (3) a required property of its
    address is omitted, the call fails with MISSING_DATA_ERROR, whose
    value is -3, and nothing is dispatched. *)
Theorem pushProvision_shape_validation (accept_empty : bool)
    (native : js_value -> outcome) :
  (forall req addr : gmap string js_value,
      (forall f, In f ["opc"; "tsp"; "clientName"; "lastDigits"] ->
                 non_empty_string (req !! f)) ->
      req !! "address" = Some (JObj addr) ->
      (forall g, In g (required_names GooglePayAddress.decl) ->
                 non_empty_string (addr !! g)) ->
      Bridge.valid_shape accept_empty (JObj req) = true
      /\ Bridge.pushProvision accept_empty native (JObj req)
         = (native (JObj req), [JObj req]))
  /\ (forall (req : gmap string js_value) (f : string),
        In f (required_names GooglePayProvisionOptions.decl) ->
        req !! f = None ->
        Bridge.pushProvision accept_empty native (JObj req)
        = (Failed ErrorCodeReference.MISSING_DATA_ERROR, []))
  /\ (forall (req addr : gmap string js_value) (g : string),
        req !! "address" = Some (JObj addr) ->
        In g (required_names GooglePayAddress.decl) ->
        addr !! g = None ->
        Bridge.pushProvision accept_empty native (JObj req)
        = (Failed ErrorCodeReference.MISSING_DATA_ERROR, []))
  /\ ErrorCodeReference.value ErrorCodeReference.MISSING_DATA_ERROR = -3.
Proof.
  split; [| split; [| split; [| reflexivity]]].
  - intros req addr Hreq Haddr Hsub.
    pose proof (valid_shape_populated accept_empty req addr Hreq Haddr Hsub)
      as Hok.
    split; [exact Hok |]. unfold Bridge.pushProvision. now rewrite Hok.
  - intros req f Hf Hnone. unfold Bridge.pushProvision.
    now rewrite (valid_shape_omitted accept_empty req f Hf Hnone).
  - intros req addr g Haddr Hg Hnone. unfold Bridge.pushProvision.
    now rewrite (valid_shape_address_omitted accept_empty req addr g
                   Haddr Hg Hnone).
Qed.

Lemma non_empty_strings_check (props : gmap string js_value)
    (names : list string) :
  forallb
    (fun f =>
       match props !! f with
       | Some (JStr s) => negb (String.eqb s "")
       | _ => false
       end) names = true ->
  forall f, In f names -> non_empty_string (props !! f).
Proof.
  intros H f Hf. rewrite forallb_forall in H. specialize (H f Hf).
  destruct (props !! f) as [[| | | s | |] |]; try discriminate.
  exists s. split; [reflexivity |].
  apply String.eqb_neq. now apply negb_true_iff.
Qed.

(** The sample request is accepted and dispatched under the strict
    policy; without opc, or without the postal code of its address, it
    fails with MISSING_DATA_ERROR and nothing is dispatched. *)
Lemma pushProvision_shape_validation_sample :
  Bridge.pushProvision false sample_native
    (GooglePayProvisionOptions.to_js sample_request)
  = (Resolved (object [ ("tokenId", JStr "token-1") ]),
     [ GooglePayProvisionOptions.to_js sample_request ])
  /\ Bridge.pushProvision false sample_native
       (JObj (delete "opc"
                (props_of (GooglePayProvisionOptions.to_js sample_request))))
     = (Failed ErrorCodeReference.MISSING_DATA_ERROR, [])
  /\ Bridge.pushProvision false sample_native
       (JObj (<["address" :=
                  JObj (delete "postalCode"
                          (props_of (GooglePayAddress.to_js sample_address)))]>
                (props_of (GooglePayProvisionOptions.to_js sample_request))))
     = (Failed ErrorCodeReference.MISSING_DATA_ERROR, []).
Proof.
  destruct (pushProvision_shape_validation false sample_native)
    as (Hok & Hreq & Haddr & _).
  split; [| split].
  - apply (Hok (props_of (GooglePayProvisionOptions.to_js sample_request))
               (props_of (GooglePayAddress.to_js sample_address))).
    + apply non_empty_strings_check. vm_compute. reflexivity.
    + vm_compute. reflexivity.
    + apply non_empty_strings_check. vm_compute. reflexivity.
  - apply (Hreq _ "opc").
    + vm_compute. tauto.
    + vm_compute. reflexivity.
  - apply (Haddr _
             (delete "postalCode"
                (props_of (GooglePayAddress.to_js sample_address)))
             "postalCode").
    + vm_compute. reflexivity.
    + vm_compute. tauto.
    + vm_compute. reflexivity.
Defined.

(** ** Checks on concrete values *)

Lemma ErrorCodeReference_of_value_sound (n : Z) (e : ErrorCodeReference.t) :
  ErrorCodeReference.of_value n = Some e -> ErrorCodeReference.value e = n.
Proof.
  unfold ErrorCodeReference.of_value. intros H.
  apply find_some in H as [_ H]. now apply Z.eqb_eq.
Qed.

Lemma TokenStatusReference_of_value_sound (n : Z) (e : TokenStatusReference.t) :
  TokenStatusReference.of_value n = Some e -> TokenStatusReference.value e = n.
Proof.
  unfold TokenStatusReference.of_value. intros H.
  apply find_some in H as [_ H]. now apply Z.eqb_eq.
Qed.

Example of_value_missing_data :
  ErrorCodeReference.of_value (-3) = Some ErrorCodeReference.MISSING_DATA_ERROR
  /\ ErrorCodeReference.of_value 0 = None
  /\ ErrorCodeReference.of_value (-10) = None.
Proof. repeat split; reflexivity. Qed.

Example of_value_token_states :
  TokenStatusReference.of_value (-1)
  = Some TokenStatusReference.TOKEN_STATE_NOT_FOUND
  /\ TokenStatusReference.of_value 5
     = Some TokenStatusReference.TOKEN_STATE_ACTIVE
  /\ TokenStatusReference.of_value 0 = None
  /\ TokenStatusReference.of_value 7 = None.
Proof. repeat split; reflexivity. Qed.

Example getEnvironment_results :
  may_resolve_with GooglePayPlugin.getEnvironment
    (object [ ("value", JStr "SANDBOX") ]) = true
  /\ may_resolve_with GooglePayPlugin.getEnvironment
       (object [ ("value", JStr "TEST") ]) = false
  /\ may_resolve_with GooglePayPlugin.getEnvironment (object []) = false.
Proof. repeat split; reflexivity. Qed.

Example getTokenStatus_results :
  may_resolve_with GooglePayPlugin.getTokenStatus
    (object [ ("state", JNum (-1)); ("code", JStr "") ]) = true
  /\ may_resolve_with GooglePayPlugin.getTokenStatus
       (object [ ("state", JNum 0); ("code", JStr "") ]) = false.
Proof. repeat split; reflexivity. Qed.

Example sample_request_conforms :
  conforms GooglePayProvisionOptions.decl
    (GooglePayProvisionOptions.to_js sample_request) = true
  /\ conforms GooglePayProvisionOptions.decl
       (JObj (delete "tsp"
                (props_of (GooglePayProvisionOptions.to_js sample_request))))
     = false.
Proof. repeat split; reflexivity. Qed.

(** A present but empty opc: rejected when empty strings do not count as
    populated, dispatched when they do. *)
Example empty_opc_depends_on_policy :
  let req :=
    JObj (<["opc" := JStr ""]>
            (props_of (GooglePayProvisionOptions.to_js sample_request))) in
  Bridge.pushProvision false sample_native req
  = (Failed ErrorCodeReference.MISSING_DATA_ERROR, [])
  /\ Bridge.pushProvision true sample_native req
     = (sample_native req, [req]).
Proof. repeat split; reflexivity. Qed.

(** ** Decoding the enumerations *)



(** X3: the two enumerations share exactly one number: an error code and
    a token status have the same value only when they are
    PUSH_PROVISION_ERROR and TOKEN_STATE_NOT_FOUND, both -1; so -1 is the
    only number that decodes in both. *)
Theorem error_code_and_token_status_overlap :
  (forall (ec : ErrorCodeReference.t) (ts : TokenStatusReference.t),
      ErrorCodeReference.value ec = TokenStatusReference.value ts
      <-> ec = ErrorCodeReference.PUSH_PROVISION_ERROR
          /\ ts = TokenStatusReference.TOKEN_STATE_NOT_FOUND)
  /\ (forall n : Z,
        is_Some (ErrorCodeReference.of_value n)
        /\ is_Some (TokenStatusReference.of_value n)
        <-> n = -1).
Proof.
  assert (forall (ec : ErrorCodeReference.t) (ts : TokenStatusReference.t),
             ErrorCodeReference.value ec = TokenStatusReference.value ts
             <-> ec = ErrorCodeReference.PUSH_PROVISION_ERROR
                 /\ ts = TokenStatusReference.TOKEN_STATE_NOT_FOUND) as Hov.
  { intros ec ts. split.
    - destruct ec, ts; cbn; intros H; try discriminate H; auto.
    - intros [-> ->]. reflexivity. }
  split; [exact Hov |].
  intros n. split.
  - intros [[ec Hec] [ts Hts]].
    apply ErrorCodeReference_of_value_sound in Hec.
    apply TokenStatusReference_of_value_sound in Hts.
    assert (ErrorCodeReference.value ec = TokenStatusReference.value ts) as E
      by congruence.
    apply Hov in E as [-> _]. now rewrite <- Hec.
  - intros ->. split; eexists; reflexivity.
Qed.

(** ** Values of the declared types *)

Lemma conforms_object (fields : list (string * bool * ts_type))
    (props : gmap string js_value) :
  conforms (TObject fields) (JObj props) = forallb (property_ok props) fields.
Proof.
  induction fields as [| [[name opt] ft] fs IH]; [reflexivity |].
  cbn [forallb]. rewrite <- IH. reflexivity.
Qed.

Lemma conforms_interface (name : string)
    (fields : list (string * bool * ts_type)) (v : js_value) :
  conforms (TInterface name fields) v = conforms (TObject fields) v.
Proof. reflexivity. Qed.

Lemma conforms_object_inv (fields : list (string * bool * ts_type))
    (v : js_value) :
  conforms (TObject fields) v = true ->
  exists props, v = JObj props /\ forallb (property_ok props) fields = true.
Proof.
  destruct v as [| b | n | s | items | props]; try discriminate.
  intros H. exists props. split; [reflexivity |].
  now rewrite <- conforms_object.
Qed.

Lemma conforms_string (x : js_value) :
  conforms TString x = true <-> exists s, x = JStr s.
Proof.
  split.
  - destruct x; try discriminate. eauto.
  - intros [s ->]. reflexivity.
Qed.

Lemma conforms_boolean (x : js_value) :
  conforms TBoolean x = true <-> exists b, x = JBool b.
Proof.
  split.
  - destruct x; try discriminate. eauto.
  - intros [b ->]. reflexivity.
Qed.

Lemma conforms_string_array (items : list js_value) :
  forallb (conforms TString) items = true
  <-> exists tokens : list string, items = map JStr tokens.
Proof.
  split.
  - induction items as [| x items IH]; intros H.
    + exists []. reflexivity.
    + cbn [forallb] in H. apply andb_true_iff in H as [Hx Hrest].
      apply conforms_string in Hx as [s ->].
      destruct (IH Hrest) as [tokens ->].
      exists (s :: tokens). reflexivity.
  - intros [tokens ->]. induction tokens as [| s tokens IH]; [reflexivity |].
    cbn [map forallb]. now rewrite IH.
Qed.



(** X5: listTokens resolves exactly with the objects whose property
    tokens is an array of strings; the array may be empty. *)
Theorem listTokens_resolves_with_string_array (v : js_value) :
  may_resolve_with GooglePayPlugin.listTokens v = true
  <-> exists (props : gmap string js_value) (tokens : list string),
        v = JObj props /\ props !! "tokens" = Some (JArr (map JStr tokens)).
Proof.
  change (may_resolve_with GooglePayPlugin.listTokens v)
    with (conforms (TObject [ required "tokens" (TArray TString) ]) v).
  split.
  - intros H. apply conforms_object_inv in H as (props & -> & H).
    cbn [forallb] in H. unfold property_ok, required in H.
    cbn [field_name field_type field_optional fst snd] in H.
    destruct (props !! "tokens") as [x |] eqn:Htokens; [| discriminate H].
    rewrite andb_true_r in H.
    destruct x as [| b | n | s | items | ps]; try discriminate H.
    cbn [conforms] in H.
    apply conforms_string_array in H as [tokens ->].
    exists props, tokens. auto.
  - intros (props & tokens & -> & Htokens).
    rewrite conforms_single_property, Htokens. cbn [conforms].
    apply conforms_string_array. eauto.
Qed.

(** ** Requests that fit more than one operation *)

(** X6: every value pushProvision accepts as its options is also
    accepted by isTokenized as its options: a provisioning request
    carries the tsp and lastDigits that make up the query key. *)
Theorem pushProvision_options_fit_isTokenized (v : js_value) :
  param_accepts GooglePayPlugin.pushProvision "options" v = true ->
  param_accepts GooglePayPlugin.isTokenized "options" v = true.
Proof.
  change (param_accepts GooglePayPlugin.pushProvision "options" v)
    with (conforms GooglePayProvisionOptions.decl v).
  change (param_accepts GooglePayPlugin.isTokenized "options" v)
    with (conforms GooglePayIsTokenizedOptions.decl v).
  unfold GooglePayProvisionOptions.decl, GooglePayIsTokenizedOptions.decl.
  rewrite !conforms_interface. intros H.
  apply conforms_object_inv in H as (props & -> & H).
  rewrite conforms_object. cbn [forallb] in H |- *.
  apply andb_true_iff in H as [_ H].
  apply andb_true_iff in H as [Htsp H].
  apply andb_true_iff in H as [_ H].
  apply andb_true_iff in H as [Hdigits _].
  now rewrite Htsp, Hdigits.
Qed.

Lemma pushProvision_options_fit_isTokenized_sample :
  param_accepts GooglePayPlugin.isTokenized "options"
    (GooglePayProvisionOptions.to_js sample_request) = true.
Proof.
  apply pushProvision_options_fit_isTokenized. reflexivity.
Defined.

(** X7: every value isGPayDefaultNFCApp may resolve with is one that
    setGPayAsDefaultNFCApp may resolve with: both results carry the
    boolean isDefault. *)
Theorem isGPayDefaultNFCApp_result_fits_setGPayAsDefaultNFCApp
    (v : js_value) :
  may_resolve_with GooglePayPlugin.isGPayDefaultNFCApp v = true ->
  may_resolve_with GooglePayPlugin.setGPayAsDefaultNFCApp v = true.
Proof.
  change (may_resolve_with GooglePayPlugin.isGPayDefaultNFCApp v)
    with (conforms
            (TObject [ required "isDefault" TBoolean;
                       required "isNFCOn" TBoolean ]) v).
  change (may_resolve_with GooglePayPlugin.setGPayAsDefaultNFCApp v)
    with (conforms (TObject [ required "isDefault" TBoolean ]) v).
  intros H. apply conforms_object_inv in H as (props & -> & H).
  rewrite conforms_object. cbn [forallb] in H |- *.
  apply andb_true_iff in H as [Hdefault _].
  now rewrite Hdefault.
Qed.

Lemma isGPayDefaultNFCApp_result_fits_setGPayAsDefaultNFCApp_sample :
  may_resolve_with GooglePayPlugin.setGPayAsDefaultNFCApp
    (object [ ("isDefault", JBool true); ("isNFCOn", JBool false) ]) = true.
Proof.
  apply isGPayDefaultNFCApp_result_fits_setGPayAsDefaultNFCApp. reflexivity.
Defined.

(** X8: a request record is accepted as the single argument of the
    operations declared for it: token options by getTokenStatus,
    requestSelectToken and requestDeleteToken, is-tokenized options by
    isTokenized, provision options by pushProvision.  The two query keys
    are not interchangeable: token options are refused by isTokenized and
    is-tokenized options by getTokenStatus. *)
Theorem request_records_fit_their_operations :
  (forall r : GooglePayTokenOptions.t,
      let arg := GooglePayTokenOptions.to_js r in
      accepts_args GooglePayPlugin.getTokenStatus [arg] = true
      /\ accepts_args GooglePayPlugin.requestSelectToken [arg] = true
      /\ accepts_args GooglePayPlugin.requestDeleteToken [arg] = true
      /\ accepts_args GooglePayPlugin.isTokenized [arg] = false)
  /\ (forall r : GooglePayIsTokenizedOptions.t,
        let arg := GooglePayIsTokenizedOptions.to_js r in
        accepts_args GooglePayPlugin.isTokenized [arg] = true
        /\ accepts_args GooglePayPlugin.getTokenStatus [arg] = false)
  /\ (forall r : GooglePayProvisionOptions.t,
        let arg := GooglePayProvisionOptions.to_js r in
        accepts_args GooglePayPlugin.pushProvision [arg] = true
        /\ accepts_args GooglePayPlugin.isTokenized [arg] = true
        /\ accepts_args GooglePayPlugin.getTokenStatus [arg] = false).
Proof.
  split; [| split].
  - intros [tsp ref]. repeat split; reflexivity.
  - intros [tsp digits]. repeat split; reflexivity.
  - intros [opc tsp client digits [n a1 [a2 |] l aa cc pc ph]];
      repeat split; reflexivity.
Qed.

(** X10: no parameter or result type of [GooglePayPlugin] mentions
    [ErrorCodeReference]; [TokenStatusReference] occurs only in
    getTokenStatus, [GooglePayAddress] only in pushProvision, and the
    imported PluginListenerHandle only in addListener. *)
Theorem types_mentioned_by_the_method_table :
  List.filter (signature_mentions "ErrorCodeReference") GooglePayPlugin.decl
  = []
  /\ List.filter (signature_mentions "TokenStatusReference")
       GooglePayPlugin.decl
     = [ GooglePayPlugin.getTokenStatus ]
  /\ List.filter (signature_mentions "GooglePayAddress") GooglePayPlugin.decl
     = [ GooglePayPlugin.pushProvision ]
  /\ List.filter (signature_mentions "PluginListenerHandle")
       GooglePayPlugin.decl
     = [ GooglePayPlugin.addListener ].
Proof. repeat split; reflexivity. Qed.

(** ** Records and the objects of their interface *)






